(** * GPU telemetry core of evanOS: src/src/core/gpu_monitor.cpp

    A shallow embedding of [NVIDIA_GPUMonitor], the two placeholder
    backends and [GPUMonitorManager].  The native world (dynamic loader
    and the NVML driver) is an explicit environment; the library
    reference count and the NVML session count are explicit state. *)

From Stdlib Require Import ZArith QArith List String Bool Lia.
Import ListNotations.
Open Scope Z_scope.

(* ------------------------------------------------------------------ *)
(** ** 32-bit [float] values *)

(** A C++ [float] holding a non-negative finite value is represented by
    the rational it denotes.  [f32_round n d] is the binary32 value
    nearest to [n / d] (ties to even) for [n, d > 0], in the normal range,
    which covers every value the code below produces (unsigned 32-bit
    integers and their quotients by 1000). *)
Definition f32_scaled (n d e : Z) : Z * Z :=
  if e <? 0 then (n * 2 ^ (- e), d) else (n, d * 2 ^ e).

Definition f32_round (n d : Z) : Q :=
  let e0 := Z.log2 n - Z.log2 d - 23 in
  let e := if (fst (f32_scaled n d e0) / snd (f32_scaled n d e0)) <? 2 ^ 23
           then e0 - 1 else e0 in
  let num := fst (f32_scaled n d e) in
  let den := snd (f32_scaled n d e) in
  let q := num / den in
  let r := num mod den in
  let m := if (den <? 2 * r) || ((2 * r =? den) && Z.odd q) then q + 1 else q in
  if e <? 0 then Qmake m (Z.to_pos (2 ^ (- e))) else inject_Z (m * 2 ^ e).

Definition f32_of_Q (x : Q) : Q :=
  if Qnum x <=? 0 then 0%Q else f32_round (Qnum x) (Zpos (Qden x)).

(** [static_cast<float>(u)] for an unsigned integer [u]. *)
Definition f32_of_uint (u : Z) : Q := f32_of_Q (inject_Z u).

(** [x / y] on two [float]s. *)
Definition f32_div (x y : Q) : Q := f32_of_Q (x / y).

(* ------------------------------------------------------------------ *)
(** ** Data model: [GPUInfo] (gpu_monitor.h) *)

Record GPUInfo := mkGPUInfo {
  name : string;
  vendor : string;
  driver_version : string;
  memory_total : Z;
  memory_used : Z;
  memory_free : Z;
  utilization : Q;
  temperature : Q;
  power_usage : Q;
  clock_core : Q;
  clock_memory : Q
}.

(** [GPUInfo gpu_info;] : the strings are empty; the numeric fields are
    indeterminate in C++ and are all written before a record is kept. *)
Definition GPUInfo_default : GPUInfo :=
  mkGPUInfo "" "" "" 0 0 0 0 0 0 0 0.

Definition set_name_vendor (nm : string) (g : GPUInfo) : GPUInfo :=
  mkGPUInfo nm "NVIDIA" (driver_version g) (memory_total g) (memory_used g)
    (memory_free g) (utilization g) (temperature g) (power_usage g)
    (clock_core g) (clock_memory g).

Definition set_driver_version (v : string) (g : GPUInfo) : GPUInfo :=
  mkGPUInfo (name g) (vendor g) v (memory_total g) (memory_used g)
    (memory_free g) (utilization g) (temperature g) (power_usage g)
    (clock_core g) (clock_memory g).

Definition set_memory (t u f : Z) (g : GPUInfo) : GPUInfo :=
  mkGPUInfo (name g) (vendor g) (driver_version g) t u f
    (utilization g) (temperature g) (power_usage g)
    (clock_core g) (clock_memory g).

Definition set_utilization (x : Q) (g : GPUInfo) : GPUInfo :=
  mkGPUInfo (name g) (vendor g) (driver_version g) (memory_total g)
    (memory_used g) (memory_free g) x (temperature g) (power_usage g)
    (clock_core g) (clock_memory g).

Definition set_temperature (x : Q) (g : GPUInfo) : GPUInfo :=
  mkGPUInfo (name g) (vendor g) (driver_version g) (memory_total g)
    (memory_used g) (memory_free g) (utilization g) x (power_usage g)
    (clock_core g) (clock_memory g).

Definition set_power_usage (x : Q) (g : GPUInfo) : GPUInfo :=
  mkGPUInfo (name g) (vendor g) (driver_version g) (memory_total g)
    (memory_used g) (memory_free g) (utilization g) (temperature g) x
    (clock_core g) (clock_memory g).

Definition set_clock_core (x : Q) (g : GPUInfo) : GPUInfo :=
  mkGPUInfo (name g) (vendor g) (driver_version g) (memory_total g)
    (memory_used g) (memory_free g) (utilization g) (temperature g)
    (power_usage g) x (clock_memory g).

Definition set_clock_memory (x : Q) (g : GPUInfo) : GPUInfo :=
  mkGPUInfo (name g) (vendor g) (driver_version g) (memory_total g)
    (memory_used g) (memory_free g) (utilization g) (temperature g)
    (power_usage g) (clock_core g) x.

(* ------------------------------------------------------------------ *)
(** ** Unit conversions of [getAllGPUInfo] *)

(** [static_cast<unsigned int>(bytes / (1024 * 1024))] with [bytes] an
    [unsigned long long]: the quotient is narrowed to 32 bits. *)
Definition mem_mb (bytes : Z) : Z := (bytes / (1024 * 1024)) mod 2 ^ 32.

(** [static_cast<float>(power_usage) / 1000.0f] *)
Definition power_w (mw : Z) : Q := f32_div (f32_of_uint mw) 1000.

(* ------------------------------------------------------------------ *)
(** ** The NVML contract *)

(** The eleven entry points [initialize] resolves by name. *)
Inductive nvml_sym :=
| NvmlInit | NvmlShutdown | NvmlDeviceGetCount | NvmlDeviceGetHandleByIndex
| NvmlDeviceGetName | NvmlDeviceGetMemoryInfo | NvmlDeviceGetUtilizationRates
| NvmlDeviceGetTemperature | NvmlDeviceGetPowerUsage | NvmlDeviceGetClockInfo
| NvmlSystemGetDriverVersion.

Definition nvml_syms : list nvml_sym :=
  [NvmlInit; NvmlShutdown; NvmlDeviceGetCount; NvmlDeviceGetHandleByIndex;
   NvmlDeviceGetName; NvmlDeviceGetMemoryInfo; NvmlDeviceGetUtilizationRates;
   NvmlDeviceGetTemperature; NvmlDeviceGetPowerUsage; NvmlDeviceGetClockInfo;
   NvmlSystemGetDriverVersion].

(** [NVMLMemoryInfo]: byte counts, each an [unsigned long long]. *)
Record NVMLMemoryInfo := mkMem { mem_total : Z; mem_free : Z; mem_used : Z }.

(** What the driver answers.  A call returning a non-zero status is
    [None]; a successful one returns its out-parameter.  Device handles
    are opaque; the driver-version call takes no device, so its answer is
    indexed by the loop iteration that makes it. *)
Record NvmlEnv := mkNvmlEnv {
  nv_init_ok : bool;
  nv_count : option Z;
  nv_handle : Z -> option Z;
  nv_name : Z -> option string;
  nv_driver : Z -> option string;
  nv_mem : Z -> option NVMLMemoryInfo;
  nv_util : Z -> option Z;
  nv_temp : Z -> Z -> option Z;
  nv_power : Z -> option Z;
  nv_clock : Z -> Z -> option Z
}.

(* ------------------------------------------------------------------ *)
(** ** Query monad

    A device query writes into a [GPUInfo] step by step, logs every NVML
    entry point it calls, and stops at the first core fetch that fails
    ([return false] in [getGPUInfo], [continue] in [getAllGPUInfo]). *)
Definition Query (A : Type) : Type :=
  GPUInfo -> option A * GPUInfo * list nvml_sym.

Definition q_ret {A} (a : A) : Query A := fun g => (Some a, g, []).

Definition q_bind {A B} (m : Query A) (k : A -> Query B) : Query B :=
  fun g =>
    match m g with
    | (None, g1, t1) => (None, g1, t1)
    | (Some a, g1, t1) =>
        match k a g1 with
        | (r, g2, t2) => (r, g2, t1 ++ t2)
        end
    end.

Notation "x <- m ;; k" := (q_bind m (fun x => k))
  (at level 61, m at next level, right associativity).

(** A fetch whose failure aborts the record. *)
Definition fetch {A} (s : nvml_sym) (r : option A) : Query A :=
  fun g => (r, g, [s]).

(** A fetch whose failure substitutes a default. *)
Definition fetch_or {A B} (s : nvml_sym) (r : option A) (conv : A -> B)
    (dflt : B) : Query B :=
  fun g => (Some (match r with Some a => conv a | None => dflt end), g, [s]).

Definition write (f : GPUInfo -> GPUInfo) : Query unit :=
  fun g => (Some tt, f g, []).

(** The body shared verbatim by [getGPUInfo] (device 0) and by each
    iteration of [getAllGPUInfo]'s loop (device [i]). *)
Definition query_body (e : NvmlEnv) (i : Z) : Query unit :=
  device <- fetch NvmlDeviceGetHandleByIndex (nv_handle e i) ;;
  nm <- fetch NvmlDeviceGetName (nv_name e device) ;;
  _ <- write (set_name_vendor nm) ;;
  drv <- fetch_or NvmlSystemGetDriverVersion (nv_driver e i) id "Unknown"%string ;;
  _ <- write (set_driver_version drv) ;;
  memory_info <- fetch NvmlDeviceGetMemoryInfo (nv_mem e device) ;;
  _ <- write (set_memory (mem_mb (mem_total memory_info))
                         (mem_mb (mem_used memory_info))
                         (mem_mb (mem_free memory_info))) ;;
  ut <- fetch NvmlDeviceGetUtilizationRates (nv_util e device) ;;
  _ <- write (set_utilization (f32_of_uint ut)) ;;
  temp <- fetch NvmlDeviceGetTemperature (nv_temp e device 0) ;;
  _ <- write (set_temperature (f32_of_uint temp)) ;;
  pw <- fetch_or NvmlDeviceGetPowerUsage (nv_power e device) power_w 0%Q ;;
  _ <- write (set_power_usage pw) ;;
  cc <- fetch_or NvmlDeviceGetClockInfo (nv_clock e device 0) f32_of_uint 0%Q ;;
  _ <- write (set_clock_core cc) ;;
  cm <- fetch_or NvmlDeviceGetClockInfo (nv_clock e device 1) f32_of_uint 0%Q ;;
  write (set_clock_memory cm).

(* ------------------------------------------------------------------ *)
(** ** The process-visible world and the dynamic loader *)

(** Open references to the NVML library and NVML sessions
    ([nvmlInit] calls not yet matched by [nvmlShutdown]). *)
Record World := mkWorld { lib_refs : nat; nvml_sessions : nat }.

(** Which library names the loader can open and which names the NVML
    library exports. *)
Record DlEnv := mkDlEnv {
  dl_opens : string -> bool;
  dl_resolves : nvml_sym -> bool
}.

(** The handle the loader hands out for the NVML library. *)
Definition NVML_HANDLE : Z := 1.

(** The candidate library names, tried in order (one for [dlopen], two
    for [LoadLibrary] under [_WIN32]). *)
Definition nvml_candidates (win32 : bool) : list string :=
  if win32 then ["nvidia-ml.dll"; "C:\Windows\System32\nvidia-ml.dll"]%string
  else ["libnvidia-ml.so.1"]%string.

Fixpoint dl_load (d : DlEnv) (cands : list string) : bool :=
  match cands with
  | [] => false
  | c :: cs => if dl_opens d c then true else dl_load d cs
  end.

(* ------------------------------------------------------------------ *)
(** ** [NVIDIA_GPUMonitor] *)

(** The object's fields: the library handle, which of the eleven function
    pointers are non-null, [is_initialized] and [device_count]. *)
Record NvState := mkNvState {
  nvml_lib : option Z;
  fptr : nvml_sym -> bool;
  is_initialized : bool;
  device_count : Z
}.

(** The constructor: everything null, false or zero. *)
Definition NV_new : NvState := mkNvState None (fun _ => false) false 0.

Section Nvidia.

Variable win32 : bool.

Definition nv_initialize (s : NvState) (w : World) (d : DlEnv) (e : NvmlEnv)
    : NvState * World * bool :=
  if negb (dl_load d (nvml_candidates win32)) then
    (mkNvState None (fptr s) (is_initialized s) (device_count s), w, false)
  else
    let s1 := mkNvState (Some NVML_HANDLE) (dl_resolves d)
                        (is_initialized s) (device_count s) in
    let w1 := mkWorld (S (lib_refs w)) (nvml_sessions w) in
    if negb (forallb (fptr s1) nvml_syms) then (s1, w1, false)
    else if negb (nv_init_ok e) then (s1, w1, false)
    else
      let w2 := mkWorld (lib_refs w1) (S (nvml_sessions w1)) in
      match nv_count e with
      | None => (s1, mkWorld (lib_refs w2) (pred (nvml_sessions w2)), false)
      | Some n => (mkNvState (nvml_lib s1) (fptr s1) true n, w2, true)
      end.

End Nvidia.

Definition nv_ready (s : NvState) : bool :=
  is_initialized s && negb (device_count s =? 0).

(** [getGPUInfo]: the body on device 0, writing into the caller's record. *)
Definition nv_getGPUInfo (s : NvState) (e : NvmlEnv) (gpu_info : GPUInfo)
    : bool * GPUInfo * list nvml_sym :=
  if negb (nv_ready s) then (false, gpu_info, [])
  else
    match query_body e 0 gpu_info with
    | (r, g, t) => (if r then true else false, g, t)
    end.

(** The [for (i = 0; i < device_count; ++i)] loop: a fresh record per
    iteration, [push_back] when the body ran to its end. *)
Fixpoint nv_sweep (e : NvmlEnv) (i : Z) (n : nat) (l : list GPUInfo)
    (t : list nvml_sym) : list GPUInfo * list nvml_sym :=
  match n with
  | O => (l, t)
  | S n' =>
      match query_body e i GPUInfo_default with
      | (Some _, g, t1) => nv_sweep e (i + 1) n' (l ++ [g]) (t ++ t1)
      | (None, _, t1) => nv_sweep e (i + 1) n' l (t ++ t1)
      end
  end.

Definition nv_getAllGPUInfo (s : NvState) (e : NvmlEnv)
    (gpu_info_list : list GPUInfo) : bool * list GPUInfo * list nvml_sym :=
  if negb (nv_ready s) then (false, gpu_info_list, [])
  else
    match nv_sweep e 0 (Z.to_nat (device_count s)) gpu_info_list [] with
    | (l, t) => (negb (match l with [] => true | _ => false end), l, t)
    end.

(** [cleanup]: [None] is a fault ([dlclose] of a handle the process does
    not hold open). *)
Definition nv_cleanup (s : NvState) (w : World) : option (NvState * World) :=
  let w1 := if is_initialized s && fptr s NvmlShutdown
            then mkWorld (lib_refs w) (pred (nvml_sessions w)) else w in
  let s' := mkNvState None (fptr s) false 0 in
  match nvml_lib s with
  | Some _ =>
      match lib_refs w1 with
      | O => None
      | S r => Some (s', mkWorld r (nvml_sessions w1))
      end
  | None => Some (s', w1)
  end.

(* ------------------------------------------------------------------ *)
(** ** [AMD_GPUMonitor] and [Intel_GPUMonitor]

    Both keep only [is_initialized]; [initialize] returns [false] and
    [getAllGPUInfo] returns [false] without touching the list. *)
Definition placeholder_initialize (is_init : bool) : bool * bool := (is_init, false).

Definition placeholder_getAllGPUInfo (is_init : bool) (l : list GPUInfo)
    : bool * list GPUInfo := (false, l).

Definition placeholder_cleanup (is_init : bool) : bool := false.

(* ------------------------------------------------------------------ *)
(** ** [GPUMonitorManager] *)

(** The retained [IGPUMonitor*]s. *)
Inductive Monitor :=
| MNvidia (s : NvState)
| MAMD (is_init : bool)
| MIntel (is_init : bool).

Record Manager := mkManager {
  gpu_monitors : list Monitor;
  mgr_is_initialized : bool
}.

Definition Manager_new : Manager := mkManager [] false.

Definition mon_getAllGPUInfo (m : Monitor) (e : NvmlEnv) (l : list GPUInfo)
    : bool * list GPUInfo :=
  match m with
  | MNvidia s => match nv_getAllGPUInfo s e l with (b, l', _) => (b, l') end
  | MAMD b | MIntel b => placeholder_getAllGPUInfo b l
  end.

(** [monitor->cleanup()] *)
Definition mon_cleanup (m : Monitor) (w : World) : option (Monitor * World) :=
  match m with
  | MNvidia s => option_map (fun '(s', w') => (MNvidia s', w')) (nv_cleanup s w)
  | MAMD b => Some (MAMD (placeholder_cleanup b), w)
  | MIntel b => Some (MIntel (placeholder_cleanup b), w)
  end.

(** [delete monitor]: every destructor calls [cleanup()]. *)
Definition mon_delete (m : Monitor) (w : World) : option World :=
  option_map snd (mon_cleanup m w).

(** Keep a backend whose [initialize()] returned true, else [delete] it. *)
Definition retain_or_delete (mons : list Monitor) (m : Monitor) (ok : bool)
    (w : World) : option (list Monitor * World) :=
  if ok then Some (mons ++ [m], w)
  else option_map (fun w' => (mons, w')) (mon_delete m w).

Section Manager_ops.

Variable win32 : bool.

Definition mgr_initialize (m : Manager) (w : World) (d : DlEnv) (e : NvmlEnv)
    : option (Manager * World * bool) :=
  let '(nv, w1, nv_ok) := nv_initialize win32 NV_new w d e in
  match retain_or_delete (gpu_monitors m) (MNvidia nv) nv_ok w1 with
  | None => None
  | Some (mons1, w2) =>
      let '(amd, amd_ok) := placeholder_initialize false in
      match retain_or_delete mons1 (MAMD amd) amd_ok w2 with
      | None => None
      | Some (mons2, w3) =>
          let '(intel, intel_ok) := placeholder_initialize false in
          match retain_or_delete mons2 (MIntel intel) intel_ok w3 with
          | None => None
          | Some (mons3, w4) =>
              let init := negb (match mons3 with [] => true | _ => false end) in
              Some (mkManager mons3 init, w4, init)
          end
      end
  end.

End Manager_ops.

Definition mgr_getAllGPUInfo (m : Manager) (e : NvmlEnv)
    (gpu_info_list : list GPUInfo) : bool * list GPUInfo :=
  if negb (mgr_is_initialized m) then (false, gpu_info_list)
  else
    let l := fold_left
               (fun acc mon =>
                  match mon_getAllGPUInfo mon e [] with
                  | (true, temp_list) => acc ++ temp_list
                  | (false, _) => acc
                  end) (gpu_monitors m) gpu_info_list in
    (negb (match l with [] => true | _ => false end), l).

(** The loop of [cleanup()]: [monitor->cleanup(); delete monitor;]. *)
Fixpoint release_all (mons : list Monitor) (w : World) : option World :=
  match mons with
  | [] => Some w
  | mon :: rest =>
      match mon_cleanup mon w with
      | None => None
      | Some (mon', w1) =>
          match mon_delete mon' w1 with
          | None => None
          | Some w2 => release_all rest w2
          end
      end
  end.

Definition mgr_cleanup (m : Manager) (w : World) : option (Manager * World) :=
  option_map (fun w' => (mkManager [] false, w')) (release_all (gpu_monitors m) w).

(* ------------------------------------------------------------------ *)
(** ** Derived notions used by the statements *)

(** The record one loop iteration pushes for device [i], if any. *)
Definition device_record (e : NvmlEnv) (i : Z) : option GPUInfo :=
  match query_body e i GPUInfo_default with
  | (Some _, g, _) => Some g
  | (None, _, _) => None
  end.

Fixpoint zrange (i : Z) (n : nat) : list Z :=
  match n with
  | O => []
  | S n' => i :: zrange (i + 1) n'
  end.

(** The records of devices [i, i+1, ..., i+n-1], in that order. *)
Definition emitted_from (e : NvmlEnv) (i : Z) (n : nat) : list GPUInfo :=
  flat_map (fun k => match device_record e k with Some g => [g] | None => [] end)
           (zrange i n).

Definition emitted (e : NvmlEnv) (n : nat) : list GPUInfo := emitted_from e 0 n.

Definition is_some {A} (o : option A) : bool :=
  match o with Some _ => true | None => false end.

(** The five fetches a record cannot do without. *)
Definition core_ok (e : NvmlEnv) (i : Z) : bool :=
  match nv_handle e i with
  | Some dev => is_some (nv_name e dev) && is_some (nv_mem e dev) &&
                is_some (nv_util e dev) && is_some (nv_temp e dev 0)
  | None => false
  end.

Definition is_nil {A} (l : list A) : bool :=
  match l with [] => true | _ => false end.

(** What the backends of a manager contribute, from an empty list. *)
Definition mgr_collected (m : Manager) (e : NvmlEnv) : list GPUInfo :=
  fold_left (fun acc mon =>
               match mon_getAllGPUInfo mon e [] with
               | (true, temp_list) => acc ++ temp_list
               | (false, _) => acc
               end) (gpu_monitors m) [].

(** States a backend reaches without ever initializing successfully:
    construction, failed [initialize] calls and [cleanup]. *)
Inductive never_ready (win32 : bool) : NvState -> World -> Prop :=
| nr_new w : never_ready win32 NV_new w
| nr_failed s w d e s' w' :
    never_ready win32 s w ->
    nv_initialize win32 s w d e = (s', w', false) ->
    never_ready win32 s' w'
| nr_cleanup s w s' w' :
    never_ready win32 s w ->
    nv_cleanup s w = Some (s', w') ->
    never_ready win32 s' w'.

(* ------------------------------------------------------------------ *)
(** ** Callers: [ConsoleUI::displayGPUInfo] (src/src/ui/console_ui.cpp)

    [displayGPUInfo] and [displayAdvancedGPUInfo] share one control flow
    and differ only in which fields they print: a local manager is
    initialized, queried into an empty vector and cleaned up, and its
    destructor runs [cleanup()] once more at the end of the scope.  The
    printed text is abstracted to what is shown. *)
Inductive gpu_display :=
| DispInitFailed
| DispNoInfo
| DispRecords (l : list GPUInfo).

Definition displayGPUInfo (win32 : bool) (w : World) (d : DlEnv) (e : NvmlEnv)
    : option (gpu_display * World) :=
  match mgr_initialize win32 Manager_new w d e with
  | None => None
  | Some (m, w1, true) =>
      let '(ok, gpu_info_list) := mgr_getAllGPUInfo m e [] in
      match mgr_cleanup m w1 with
      | None => None
      | Some (m2, w2) =>
          option_map (fun '(_, w3) =>
                        (if ok then DispRecords gpu_info_list else DispNoInfo, w3))
                     (mgr_cleanup m2 w2)
      end
  | Some (m, w1, false) =>
      option_map (fun '(_, w2) => (DispInitFailed, w2)) (mgr_cleanup m w1)
  end.

(** The full sequence of NVML calls one device query makes. *)
Definition query_calls : list nvml_sym :=
  [NvmlDeviceGetHandleByIndex; NvmlDeviceGetName; NvmlSystemGetDriverVersion;
   NvmlDeviceGetMemoryInfo; NvmlDeviceGetUtilizationRates;
   NvmlDeviceGetTemperature; NvmlDeviceGetPowerUsage; NvmlDeviceGetClockInfo;
   NvmlDeviceGetClockInfo].

Definition nvml_sym_eqb (a b : nvml_sym) : bool :=
  match a, b with
  | NvmlInit, NvmlInit | NvmlShutdown, NvmlShutdown
  | NvmlDeviceGetCount, NvmlDeviceGetCount
  | NvmlDeviceGetHandleByIndex, NvmlDeviceGetHandleByIndex
  | NvmlDeviceGetName, NvmlDeviceGetName
  | NvmlDeviceGetMemoryInfo, NvmlDeviceGetMemoryInfo
  | NvmlDeviceGetUtilizationRates, NvmlDeviceGetUtilizationRates
  | NvmlDeviceGetTemperature, NvmlDeviceGetTemperature
  | NvmlDeviceGetPowerUsage, NvmlDeviceGetPowerUsage
  | NvmlDeviceGetClockInfo, NvmlDeviceGetClockInfo
  | NvmlSystemGetDriverVersion, NvmlSystemGetDriverVersion => true
  | _, _ => false
  end.

(** How many times entry point [s] occurs in a call log. *)
Definition calls_of (s : nvml_sym) (t : list nvml_sym) : nat :=
  List.length (filter (nvml_sym_eqb s) t).

(* ------------------------------------------------------------------ *)
(** ** Concrete environments *)

(** A loader that opens every candidate and resolves every name. *)
Definition dl_all : DlEnv := mkDlEnv (fun _ => true) (fun _ => true).

(** The same library without [nvmlInit]. *)
Definition dl_no_init : DlEnv :=
  mkDlEnv (fun _ => true)
          (fun s => match s with NvmlInit => false | _ => true end).

(** Three devices, the handle of device 1 cannot be enumerated; no driver
    version and no memory clock; 1 GiB of memory, 125 W. *)
Definition env3 : NvmlEnv :=
  mkNvmlEnv true (Some 3)
    (fun i => if i =? 1 then None else Some (10 + i))
    (fun dev => Some (if dev =? 10 then "GPU0"%string else "GPU2"%string))
    (fun _ => None)
    (fun _ => Some (mkMem 1073741824 536870912 536870912))
    (fun _ => Some 50) (fun _ _ => Some 60) (fun _ => Some 125000)
    (fun _ c => if c =? 0 then Some 1500 else None).

(** One device whose handle cannot be enumerated. *)
Definition env_no_handle : NvmlEnv :=
  mkNvmlEnv true (Some 1) (fun _ => None) (fun _ => None) (fun _ => None)
    (fun _ => None) (fun _ => None) (fun _ _ => None) (fun _ => None)
    (fun _ _ => None).

(** One device reporting 2^52 bytes (4 PiB) of memory. *)
Definition env_huge_mem : NvmlEnv :=
  mkNvmlEnv true (Some 1) (fun _ => Some 7) (fun _ => Some "big"%string)
    (fun _ => Some "550.54"%string)
    (fun _ => Some (mkMem (2 ^ 52) 0 (2 ^ 52)))
    (fun _ => Some 0) (fun _ _ => Some 40) (fun _ => None) (fun _ _ => None).

(** One device whose name is known but whose memory fetch fails. *)
Definition env_no_mem : NvmlEnv :=
  mkNvmlEnv true (Some 1) (fun _ => Some 0) (fun _ => Some "GPU0"%string)
    (fun _ => Some "550.54"%string) (fun _ => None)
    (fun _ => Some 50) (fun _ _ => Some 60) (fun _ => Some 125000)
    (fun _ _ => Some 1500).

(** A backend after a successful [initialize] on [env3]. *)
Definition nv3 : NvState := mkNvState (Some NVML_HANDLE) (fun _ => true) true 3.

(** The same backend reporting a single device. *)
Definition nv1 : NvState := mkNvState (Some NVML_HANDLE) (fun _ => true) true 1.

(* ------------------------------------------------------------------ *)
(** ** Lemmas about the embedding *)

Lemma device_record_eq (e : NvmlEnv) (i : Z) :
  device_record e i =
  match nv_handle e i with
  | None => None
  | Some dev =>
      match nv_name e dev, nv_mem e dev, nv_util e dev, nv_temp e dev 0 with
      | Some nm, Some mem, Some ut, Some tp =>
          Some (mkGPUInfo nm "NVIDIA"
                  (match nv_driver e i with Some v => v | None => "Unknown"%string end)
                  (mem_mb (mem_total mem)) (mem_mb (mem_used mem)) (mem_mb (mem_free mem))
                  (f32_of_uint ut) (f32_of_uint tp)
                  (match nv_power e dev with Some p => power_w p | None => 0%Q end)
                  (match nv_clock e dev 0 with Some c => f32_of_uint c | None => 0%Q end)
                  (match nv_clock e dev 1 with Some c => f32_of_uint c | None => 0%Q end))
      | _, _, _, _ => None
      end
  end.
Proof.
  unfold device_record, query_body, q_bind, fetch, fetch_or, write.
  destruct (nv_handle e i) as [dev|]; [|reflexivity].
  destruct (nv_name e dev); [|reflexivity].
  destruct (nv_mem e dev); [|reflexivity].
  destruct (nv_util e dev); [|reflexivity].
  destruct (nv_temp e dev 0); [|reflexivity].
  reflexivity.
Qed.

Lemma nv_sweep_fst (e : NvmlEnv) (n : nat) :
  forall i l t, fst (nv_sweep e i n l t) = l ++ emitted_from e i n.
Proof.
  induction n as [|n IH]; intros i l t; simpl.
  - unfold emitted_from. simpl. symmetry. apply app_nil_r.
  - unfold emitted_from. simpl. fold (emitted_from e (i + 1) n).
    unfold device_record at 1.
    destruct (query_body e i GPUInfo_default) as [[[u|] g] t1];
      rewrite IH; simpl; [rewrite <- app_assoc|]; reflexivity.
Qed.

Lemma nv_getAllGPUInfo_fst (s : NvState) (e : NvmlEnv) (l : list GPUInfo) :
  fst (nv_getAllGPUInfo s e l) =
  if nv_ready s
  then (negb (is_nil (l ++ emitted e (Z.to_nat (device_count s)))),
        l ++ emitted e (Z.to_nat (device_count s)))
  else (false, l).
Proof.
  unfold nv_getAllGPUInfo. destruct (nv_ready s); simpl; [|reflexivity].
  pose proof (nv_sweep_fst e (Z.to_nat (device_count s)) 0 l []) as H.
  destruct (nv_sweep e 0 (Z.to_nat (device_count s)) l []) as [l' t].
  simpl in *. subst l'. reflexivity.
Qed.

Lemma device_record_some_iff (e : NvmlEnv) (i : Z) :
  is_some (device_record e i) = core_ok e i.
Proof.
  rewrite device_record_eq. unfold core_ok.
  destruct (nv_handle e i) as [dev|]; [|reflexivity].
  destruct (nv_name e dev), (nv_mem e dev), (nv_util e dev), (nv_temp e dev 0);
    reflexivity.
Qed.

Lemma device_record_no_handle (e : NvmlEnv) (i : Z) :
  nv_handle e i = None -> device_record e i = None.
Proof. intros H. rewrite device_record_eq, H. reflexivity. Qed.

Lemma device_record_fields (e : NvmlEnv) (i : Z) (g : GPUInfo) :
  device_record e i = Some g ->
  exists dev mem,
    nv_handle e i = Some dev /\ nv_mem e dev = Some mem /\
    driver_version g = match nv_driver e i with Some v => v | None => "Unknown"%string end /\
    memory_total g = mem_mb (mem_total mem) /\
    memory_used g = mem_mb (mem_used mem) /\
    memory_free g = mem_mb (mem_free mem) /\
    power_usage g = match nv_power e dev with Some p => power_w p | None => 0%Q end /\
    clock_core g = match nv_clock e dev 0 with Some c => f32_of_uint c | None => 0%Q end /\
    clock_memory g = match nv_clock e dev 1 with Some c => f32_of_uint c | None => 0%Q end.
Proof.
  rewrite device_record_eq. intros H.
  destruct (nv_handle e i) as [dev|] eqn:Hdev; [|discriminate].
  destruct (nv_mem e dev) as [mem|] eqn:Hmem;
    destruct (nv_name e dev), (nv_util e dev), (nv_temp e dev 0); try discriminate.
  injection H as <-. exists dev, mem. repeat split; auto.
Qed.

(* ------------------------------------------------------------------ *)
(** ** Per-device query sweep *)

(** C2: on an initialized backend with devices, [getAllGPUInfo] appends
    the records of the devices in turn, and device [i] yields a record
    exactly when the handle, name, memory, utilization and temperature
    fetches succeed; a failed driver-version, power or clock fetch only
    puts "Unknown", 0.0 W or 0.0 MHz in that one field. *)
Theorem nv_record_iff_core_fetches (s : NvState) (e : NvmlEnv)
    (l : list GPUInfo) (Hready : nv_ready s = true) :
  snd (fst (nv_getAllGPUInfo s e l)) = l ++ emitted e (Z.to_nat (device_count s)) /\
  forall i,
    is_some (device_record e i) = core_ok e i /\
    forall g, device_record e i = Some g ->
      exists dev, nv_handle e i = Some dev /\
        driver_version g = match nv_driver e i with Some v => v | None => "Unknown"%string end /\
        power_usage g = match nv_power e dev with Some p => power_w p | None => 0%Q end /\
        clock_core g = match nv_clock e dev 0 with Some c => f32_of_uint c | None => 0%Q end /\
        clock_memory g = match nv_clock e dev 1 with Some c => f32_of_uint c | None => 0%Q end.
Proof.
  split.
  - rewrite nv_getAllGPUInfo_fst, Hready. reflexivity.
  - intros i. split; [apply device_record_some_iff|].
    intros g Hg.
    destruct (device_record_fields e i g Hg)
      as (dev & mem & Hdev & _ & Hdrv & _ & _ & _ & Hpw & Hcc & Hcm).
    exists dev. repeat split; assumption.
Qed.

Lemma nv_record_iff_core_fetches_witness :
  nv_ready nv3 = true /\
  (snd (fst (nv_getAllGPUInfo nv3 env3 [])) = [] ++ emitted env3 (Z.to_nat (device_count nv3)) /\
  forall i,
    is_some (device_record env3 i) = core_ok env3 i /\
    forall g, device_record env3 i = Some g ->
      exists dev, nv_handle env3 i = Some dev /\
        driver_version g = match nv_driver env3 i with Some v => v | None => "Unknown"%string end /\
        power_usage g = match nv_power env3 dev with Some p => power_w p | None => 0%Q end /\
        clock_core g = match nv_clock env3 dev 0 with Some c => f32_of_uint c | None => 0%Q end /\
        clock_memory g = match nv_clock env3 dev 1 with Some c => f32_of_uint c | None => 0%Q end).
Proof.
  split; [reflexivity|]. apply (nv_record_iff_core_fetches nv3 env3 []). reflexivity.
Defined.

(** C3: a device whose handle cannot be enumerated is skipped and the
    sweep goes on; the records come in ascending device order.  With three
    devices and only device 1's handle failing, exactly the records of
    devices 0 and 2 are returned, in that order. *)
Theorem nv_sweep_skips_failed_handles (s : NvState) (e : NvmlEnv)
    (l : list GPUInfo) (Hready : nv_ready s = true) :
  snd (fst (nv_getAllGPUInfo s e l)) = l ++ emitted e (Z.to_nat (device_count s)) /\
  (forall i, nv_handle e i = None -> device_record e i = None) /\
  (device_count s = 3 -> nv_handle e 1 = None ->
   core_ok e 0 = true -> core_ok e 2 = true ->
   exists g0 g2, device_record e 0 = Some g0 /\ device_record e 2 = Some g2 /\
     snd (fst (nv_getAllGPUInfo s e [])) = [g0; g2]).
Proof.
  split; [|split].
  - rewrite nv_getAllGPUInfo_fst, Hready. reflexivity.
  - apply device_record_no_handle.
  - intros Hn H1 H0 H2.
    rewrite <- device_record_some_iff in H0, H2.
    destruct (device_record e 0) as [g0|] eqn:E0; [|discriminate].
    destruct (device_record e 2) as [g2|] eqn:E2; [|discriminate].
    exists g0, g2. split; [reflexivity|]. split; [reflexivity|].
    rewrite nv_getAllGPUInfo_fst, Hready, Hn. simpl.
    unfold emitted, emitted_from. simpl.
    rewrite E0, E2, (device_record_no_handle e 1 H1). reflexivity.
Qed.

Lemma nv_sweep_skips_failed_handles_witness :
  nv_ready nv3 = true /\
  (snd (fst (nv_getAllGPUInfo nv3 env3 [])) = [] ++ emitted env3 (Z.to_nat (device_count nv3)) /\
  (forall i, nv_handle env3 i = None -> device_record env3 i = None) /\
  (device_count nv3 = 3 -> nv_handle env3 1 = None ->
   core_ok env3 0 = true -> core_ok env3 2 = true ->
   exists g0 g2, device_record env3 0 = Some g0 /\ device_record env3 2 = Some g2 /\
     snd (fst (nv_getAllGPUInfo nv3 env3 [])) = [g0; g2])).
Proof.
  split; [reflexivity|]. apply (nv_sweep_skips_failed_handles nv3 env3 []). reflexivity.
Defined.

Lemma fold_append_acc {A B} (F : list B -> A -> list B)
    (HF : forall acc x, F acc x = acc ++ F [] x) (mons : list A) :
  forall acc, fold_left F mons acc = acc ++ fold_left F mons [].
Proof.
  induction mons as [|x rest IH]; intros acc; simpl.
  - symmetry. apply app_nil_r.
  - rewrite IH, (IH (F [] x)), HF, app_assoc. reflexivity.
Qed.

Lemma mgr_getAllGPUInfo_eq (m : Manager) (e : NvmlEnv) (l : list GPUInfo) :
  mgr_getAllGPUInfo m e l =
  if mgr_is_initialized m
  then (negb (is_nil (l ++ mgr_collected m e)), l ++ mgr_collected m e)
  else (false, l).
Proof.
  unfold mgr_getAllGPUInfo, mgr_collected.
  destruct (mgr_is_initialized m); [|reflexivity]. simpl.
  rewrite fold_append_acc; [reflexivity|].
  intros acc mon. destruct (mon_getAllGPUInfo mon e []) as [[|] t]; simpl.
  - reflexivity.
  - symmetry. apply app_nil_r.
Qed.

(** C5, as stated (refuted): the result is not "false exactly when the
    call produced no record".  One device whose handle fails, and a list
    that already holds a record: nothing is produced, yet the call returns
    true. *)
Lemma nv_getAllGPUInfo_true_without_records :
  emitted env_no_handle (Z.to_nat (device_count nv1)) = [] /\
  nv_getAllGPUInfo nv1 env_no_handle [GPUInfo_default] =
    (true, [GPUInfo_default], [NvmlDeviceGetHandleByIndex]).
Proof. split; reflexivity. Qed.

(** C5, amended: on an initialized backend with devices, the records are
    appended in ascending device order after the list's existing elements
    and the result is the non-emptiness of the final list; otherwise the
    call returns false and leaves the list alone.  From an empty list the
    call returns false exactly when it produced no record. *)
Theorem nv_getAllGPUInfo_appends_in_order (s : NvState) (e : NvmlEnv)
    (l : list GPUInfo) :
  fst (nv_getAllGPUInfo s e l) =
    (if nv_ready s
     then (negb (is_nil (l ++ emitted e (Z.to_nat (device_count s)))),
           l ++ emitted e (Z.to_nat (device_count s)))
     else (false, l)) /\
  (fst (fst (nv_getAllGPUInfo s e [])) = false <->
   nv_ready s = false \/ emitted e (Z.to_nat (device_count s)) = []).
Proof.
  split; [apply nv_getAllGPUInfo_fst|].
  pose proof (nv_getAllGPUInfo_fst s e []) as H.
  destruct (nv_getAllGPUInfo s e []) as [[b l'] t]. simpl in H |- *.
  destruct (nv_ready s); injection H as -> _; simpl.
  - destruct (emitted e (Z.to_nat (device_count s))); simpl;
      split; intros Hx; try reflexivity; try discriminate; auto.
    destruct Hx; discriminate.
  - split; auto.
Qed.

(* ------------------------------------------------------------------ *)
(** ** Unit conversions *)

(** C8, as stated (refuted): the megabyte count is narrowed to 32 bits.
    A device reporting 2^52 bytes gets [memory_total = 0], not
    2^52 / 1048576 = 2^32. *)
Lemma mem_mb_wraps_at_4PiB :
  exists g, device_record env_huge_mem 0 = Some g /\
    memory_total g = 0 /\ 2 ^ 52 / 1048576 = 4294967296.
Proof. eexists. split; [reflexivity|]. split; reflexivity. Qed.

(** C8, amended: each memory field is the byte count divided by 1048576
    with truncation, reduced modulo 2^32 by the cast to [unsigned int];
    below 2^52 bytes that is exactly the truncated quotient, and
    1073741824 bytes give 1024. *)
Theorem memory_fields_truncate (e : NvmlEnv) (i : Z) (g : GPUInfo)
    (H : device_record e i = Some g) :
  (exists dev mem, nv_handle e i = Some dev /\ nv_mem e dev = Some mem /\
     memory_total g = (mem_total mem / 1048576) mod 2 ^ 32 /\
     memory_used g = (mem_used mem / 1048576) mod 2 ^ 32 /\
     memory_free g = (mem_free mem / 1048576) mod 2 ^ 32) /\
  (forall b, 0 <= b < 2 ^ 52 -> mem_mb b = b / 1048576) /\
  mem_mb 1073741824 = 1024.
Proof.
  split; [|split].
  - destruct (device_record_fields e i g H)
      as (dev & mem & Hdev & Hmem & _ & Ht & Hu & Hf & _).
    exists dev, mem. repeat split; assumption.
  - intros b Hb. unfold mem_mb. apply Z.mod_small. split.
    + apply Z.div_pos; lia.
    + apply Z.div_lt_upper_bound; lia.
  - reflexivity.
Qed.

Lemma memory_fields_truncate_witness :
  exists g, device_record env3 0 = Some g /\ memory_total g = 1024 /\
  ((exists dev mem, nv_handle env3 0 = Some dev /\ nv_mem env3 dev = Some mem /\
     memory_total g = (mem_total mem / 1048576) mod 2 ^ 32 /\
     memory_used g = (mem_used mem / 1048576) mod 2 ^ 32 /\
     memory_free g = (mem_free mem / 1048576) mod 2 ^ 32) /\
  (forall b, 0 <= b < 2 ^ 52 -> mem_mb b = b / 1048576) /\
  mem_mb 1073741824 = 1024).
Proof.
  eexists. split; [reflexivity|]. split; [reflexivity|].
  apply (memory_fields_truncate env3 0). reflexivity.
Defined.

(** C9: a successful power fetch of [p] milliwatts gives the [float]
    quotient [static_cast<float>(p) / 1000.0f]; 125000 mW give exactly
    125 W. *)
Theorem power_usage_in_watts (e : NvmlEnv) (i : Z) (g : GPUInfo) (dev p : Z)
    (H : device_record e i = Some g) (Hdev : nv_handle e i = Some dev)
    (Hp : nv_power e dev = Some p) :
  power_usage g = f32_div (f32_of_uint p) 1000 /\ (power_w 125000 == 125)%Q.
Proof.
  split; [|reflexivity].
  destruct (device_record_fields e i g H)
    as (dev' & mem & Hdev' & _ & _ & _ & _ & _ & Hpw & _).
  rewrite Hdev in Hdev'. injection Hdev' as <-.
  rewrite Hpw, Hp. reflexivity.
Qed.

Lemma power_usage_in_watts_witness :
  exists g, device_record env3 0 = Some g /\ nv_handle env3 0 = Some 10 /\
    nv_power env3 10 = Some 125000 /\
    (power_usage g == 125)%Q /\
    (power_usage g = f32_div (f32_of_uint 125000) 1000 /\ (power_w 125000 == 125)%Q).
Proof.
  eexists. split; [reflexivity|]. split; [reflexivity|]. split; [reflexivity|].
  split; [reflexivity|].
  apply (power_usage_in_watts env3 0 _ 10 125000); reflexivity.
Defined.

(* ------------------------------------------------------------------ *)
(** ** Output lists supplied by the caller *)

(** C10, as stated (refuted): the result is not always the non-emptiness
    of the final list.  A manager that was never initialized returns false
    on a list that already holds a record. *)
Lemma mgr_getAllGPUInfo_false_on_nonempty :
  mgr_getAllGPUInfo Manager_new env3 [GPUInfo_default] = (false, [GPUInfo_default]).
Proof. reflexivity. Qed.

(** C10, amended: both [getAllGPUInfo]s append after the caller's
    elements without clearing them.  On an initialized manager (for the
    Nvidia backend: initialized with devices) the result is the
    non-emptiness of the final list, so a pre-populated list gives true
    even when nothing was added; otherwise the call returns false and
    leaves the list unchanged. *)
Theorem getAllGPUInfo_appends_to_caller_list (m : Manager) (s : NvState)
    (e : NvmlEnv) (l : list GPUInfo) :
  mgr_getAllGPUInfo m e l =
    (if mgr_is_initialized m
     then (negb (is_nil (l ++ mgr_collected m e)), l ++ mgr_collected m e)
     else (false, l)) /\
  fst (nv_getAllGPUInfo s e l) =
    (if nv_ready s
     then (negb (is_nil (l ++ emitted e (Z.to_nat (device_count s)))),
           l ++ emitted e (Z.to_nat (device_count s)))
     else (false, l)).
Proof.
  split; [apply mgr_getAllGPUInfo_eq | apply nv_getAllGPUInfo_fst].
Qed.

(* ------------------------------------------------------------------ *)
(** ** Lifecycle lemmas *)

Lemma forallb_missing (d : DlEnv) (sym : nvml_sym) :
  dl_resolves d sym = false -> forallb (dl_resolves d) nvml_syms = false.
Proof.
  intros H. destruct sym; simpl; rewrite H; simpl; rewrite ?andb_false_r; reflexivity.
Qed.

(** A failed [initialize] on a backend that is not initialized leaves it
    not initialized, and a [cleanup] afterwards does not fault and puts the
    world back as it was before the call. *)
Lemma nv_initialize_failed (win32 : bool) (s : NvState) (w : World)
    (d : DlEnv) (e : NvmlEnv) (s' : NvState) (w' : World)
    (Hs : is_initialized s = false)
    (H : nv_initialize win32 s w d e = (s', w', false)) :
  is_initialized s' = false /\
  nv_cleanup s' w' = Some (mkNvState None (fptr s') false 0, w) /\
  (dl_load d (nvml_candidates win32) = true ->
   nvml_lib s' = Some NVML_HANDLE /\ fptr s' = dl_resolves d /\
   lib_refs w' = S (lib_refs w) /\ nvml_sessions w' = nvml_sessions w).
Proof.
  unfold nv_initialize in H.
  destruct (dl_load d (nvml_candidates win32)) eqn:Hl; simpl in H;
    repeat match type of H with
    | context [if ?b then _ else _] => destruct b; simpl in H
    | context [match nv_count e with Some _ => _ | None => _ end] =>
        destruct (nv_count e); simpl in H
    end;
    inversion H as [[Hs1 Hw1]]; clear H; subst s'; subst w';
    unfold nv_cleanup; simpl; rewrite ?Hs; destruct w; simpl;
    repeat split; auto; discriminate.
Qed.

(* ------------------------------------------------------------------ *)
(** ** Symbol resolution *)

(** C1, as stated (refuted): the partially resolved table is kept.
    Without [nvmlInit], [initialize] fails but the object still holds the
    ten other pointers, [nvmlShutdown] among them. *)
Lemma partial_table_retained :
  let '(s', _, ok) := nv_initialize false NV_new (mkWorld 0 0) dl_no_init env3 in
  ok = false /\ fptr s' NvmlShutdown = true /\ fptr s' NvmlInit = false.
Proof. simpl. repeat split. Qed.

(** C1, amended: if one of the eleven names does not resolve, [initialize]
    on a backend not yet initialized returns false and leaves it not
    initialized; the pointers that did resolve stay in the object, but no
    query and no [cleanup] calls any of them: both queries return false
    without an NVML call, and [cleanup] only closes the library. *)
Theorem missing_symbol_pointers_never_invoked (win32 : bool) (s : NvState)
    (w : World) (d : DlEnv) (e : NvmlEnv) (sym : nvml_sym)
    (Hs : is_initialized s = false)
    (Hload : dl_load d (nvml_candidates win32) = true)
    (Hmiss : dl_resolves d sym = false) :
  let s' := mkNvState (Some NVML_HANDLE) (dl_resolves d) false (device_count s) in
  let w' := mkWorld (S (lib_refs w)) (nvml_sessions w) in
  nv_initialize win32 s w d e = (s', w', false) /\
  (forall e' g, nv_getGPUInfo s' e' g = (false, g, [])) /\
  (forall e' l, nv_getAllGPUInfo s' e' l = (false, l, [])) /\
  nv_cleanup s' w' = Some (mkNvState None (dl_resolves d) false 0, w).
Proof.
  intros s' w'.
  assert (Hi : nv_initialize win32 s w d e = (s', w', false)).
  { unfold nv_initialize. rewrite Hload. simpl.
    pose proof (forallb_missing d sym Hmiss) as Hf. simpl in Hf |- *.
    rewrite Hf. simpl.
    unfold s'. rewrite Hs. reflexivity. }
  split; [exact Hi|].
  split; [intros; reflexivity|].
  split; [intros; reflexivity|].
  destruct (nv_initialize_failed win32 s w d e s' w' Hs Hi) as (_ & Hc & _).
  exact Hc.
Qed.

Lemma missing_symbol_pointers_never_invoked_witness :
  is_initialized NV_new = false /\
  dl_load dl_no_init (nvml_candidates false) = true /\
  dl_resolves dl_no_init NvmlInit = false /\
  (let s' := mkNvState (Some NVML_HANDLE) (dl_resolves dl_no_init) false (device_count NV_new) in
   let w' := mkWorld (S (lib_refs (mkWorld 0 0))) (nvml_sessions (mkWorld 0 0)) in
   nv_initialize false NV_new (mkWorld 0 0) dl_no_init env3 = (s', w', false) /\
   (forall e' g, nv_getGPUInfo s' e' g = (false, g, [])) /\
   (forall e' l, nv_getAllGPUInfo s' e' l = (false, l, [])) /\
   nv_cleanup s' w' = Some (mkNvState None (dl_resolves dl_no_init) false 0, mkWorld 0 0)).
Proof.
  split; [reflexivity|]. split; [reflexivity|]. split; [reflexivity|].
  apply (missing_symbol_pointers_never_invoked false NV_new (mkWorld 0 0)
           dl_no_init env3 NvmlInit); reflexivity.
Defined.

(* ------------------------------------------------------------------ *)
(** ** Failed initialization *)

(** C4, as stated (refuted): a failed [initialize] keeps the library
    open, and a second attempt on the same object opens it again: after
    two failures for a missing [nvmlInit] the handle is still set and two
    references are open. *)
Lemma failed_initialize_keeps_library :
  let '(s1, w1, ok1) := nv_initialize false NV_new (mkWorld 0 0) dl_no_init env3 in
  let '(s2, w2, ok2) := nv_initialize false s1 w1 dl_no_init env3 in
  ok1 = false /\ ok2 = false /\ nvml_lib s1 = Some NVML_HANDLE /\
  lib_refs w1 = 1%nat /\ lib_refs w2 = 2%nat.
Proof. simpl. repeat split. Qed.

(** C4, amended: when [initialize] fails after the library was loaded,
    it returns false, leaves the backend not initialized and does not
    release the library (handle and pointers stay, one reference stays
    open); only the device-count failure undoes a step, the [nvmlShutdown]
    that closes the NVML session it opened.  A later [cleanup] releases the
    handle without fault and restores the world of before the call. *)
Theorem failed_initialize_released_by_cleanup (win32 : bool) (s : NvState)
    (w : World) (d : DlEnv) (e : NvmlEnv) (s' : NvState) (w' : World)
    (Hs : is_initialized s = false)
    (Hload : dl_load d (nvml_candidates win32) = true)
    (Hfail : nv_initialize win32 s w d e = (s', w', false)) :
  is_initialized s' = false /\
  nvml_lib s' = Some NVML_HANDLE /\ fptr s' = dl_resolves d /\
  lib_refs w' = S (lib_refs w) /\ nvml_sessions w' = nvml_sessions w /\
  nv_cleanup s' w' = Some (mkNvState None (fptr s') false 0, w).
Proof.
  destruct (nv_initialize_failed win32 s w d e s' w' Hs Hfail) as (Hi & Hc & Hl).
  destruct (Hl Hload) as (Hlib & Hf & Hr & Hn).
  repeat split; assumption.
Qed.

Lemma failed_initialize_released_by_cleanup_witness :
  is_initialized NV_new = false /\
  dl_load dl_no_init (nvml_candidates false) = true /\
  nv_initialize false NV_new (mkWorld 0 0) dl_no_init env3 =
    (mkNvState (Some NVML_HANDLE) (dl_resolves dl_no_init) false 0, mkWorld 1 0, false) /\
  (let s' := mkNvState (Some NVML_HANDLE) (dl_resolves dl_no_init) false 0 in
   let w' := mkWorld 1 0 in
   is_initialized s' = false /\
   nvml_lib s' = Some NVML_HANDLE /\ fptr s' = dl_resolves dl_no_init /\
   lib_refs w' = S (lib_refs (mkWorld 0 0)) /\
   nvml_sessions w' = nvml_sessions (mkWorld 0 0) /\
   nv_cleanup s' w' = Some (mkNvState None (fptr s') false 0, mkWorld 0 0)).
Proof.
  split; [reflexivity|]. split; [reflexivity|]. split; [reflexivity|].
  apply (failed_initialize_released_by_cleanup false NV_new (mkWorld 0 0)
           dl_no_init env3); reflexivity.
Defined.

(* ------------------------------------------------------------------ *)
(** ** Manager initialization *)

Lemma mgr_initialize_eq (win32 : bool) (m : Manager) (w : World) (d : DlEnv)
    (e : NvmlEnv) (nv : NvState) (w1 : World) (ok : bool)
    (Hnv : nv_initialize win32 NV_new w d e = (nv, w1, ok)) :
  exists w',
    (if ok then w' = w1 else mon_delete (MNvidia nv) w1 = Some w') /\
    mgr_initialize win32 m w d e =
      Some (mkManager (gpu_monitors m ++ (if ok then [MNvidia nv] else []))
                      (negb (is_nil (gpu_monitors m ++ (if ok then [MNvidia nv] else [])))),
            w',
            negb (is_nil (gpu_monitors m ++ (if ok then [MNvidia nv] else [])))).
Proof.
  destruct ok.
  - exists w1. split; [reflexivity|].
    unfold mgr_initialize. rewrite Hnv. simpl. rewrite ?app_nil_r. reflexivity.
  - destruct (nv_initialize_failed win32 NV_new w d e nv w1 eq_refl Hnv)
      as (_ & Hc & _).
    exists w.
    assert (Hdel : mon_delete (MNvidia nv) w1 = Some w).
    { unfold mon_delete, mon_cleanup. rewrite Hc. reflexivity. }
    split; [exact Hdel|].
    unfold mgr_initialize. rewrite Hnv. simpl. rewrite Hdel. simpl.
    rewrite ?app_nil_r. reflexivity.
Qed.

(** C6, as stated (refuted): the result is not "a backend was kept by
    this call".  On a manager that already holds a backend, a call whose
    Nvidia [initialize] fails keeps nothing new and still returns true. *)
Lemma mgr_initialize_true_without_retaining :
  snd (nv_initialize false NV_new (mkWorld 1 1) dl_no_init env3) = false /\
  exists w',
    mgr_initialize false (mkManager [MNvidia nv3] true) (mkWorld 1 1) dl_no_init env3 =
      Some (mkManager [MNvidia nv3] true, w', true).
Proof. split; [reflexivity|]. eexists. reflexivity. Qed.

(** C6, amended: [initialize] appends the Nvidia backend to the backends
    the manager already holds exactly when its [initialize] returned true,
    deletes it otherwise (its destructor's [cleanup] runs without fault),
    drops the AMD and Intel backends, whose [initialize] returns false, and
    returns true iff the resulting list is non-empty.  From a manager
    holding no backend (as constructed or after [cleanup]) it therefore
    returns true iff a backend was kept, and when none was kept
    [getAllGPUInfo] returns false and appends nothing. *)
Theorem mgr_initialize_retains_working_backends (win32 : bool) (m : Manager)
    (w : World) (d : DlEnv) (e : NvmlEnv) (nv : NvState) (w1 : World) (ok : bool)
    (Hnv : nv_initialize win32 NV_new w d e = (nv, w1, ok)) :
  snd (placeholder_initialize false) = false /\
  exists m' w',
    mgr_initialize win32 m w d e = Some (m', w', mgr_is_initialized m') /\
    gpu_monitors m' = gpu_monitors m ++ (if ok then [MNvidia nv] else []) /\
    mgr_is_initialized m' = negb (is_nil (gpu_monitors m')) /\
    (if ok then w' = w1 else mon_delete (MNvidia nv) w1 = Some w') /\
    (gpu_monitors m = [] ->
     mgr_is_initialized m' = ok /\
     (ok = false -> forall e' l, mgr_getAllGPUInfo m' e' l = (false, l))).
Proof.
  split; [reflexivity|].
  destruct (mgr_initialize_eq win32 m w d e nv w1 ok Hnv) as (w' & Hw & H).
  exists (mkManager (gpu_monitors m ++ (if ok then [MNvidia nv] else []))
                    (negb (is_nil (gpu_monitors m ++ (if ok then [MNvidia nv] else []))))), w'.
  split; [exact H|]. split; [reflexivity|]. split; [reflexivity|].
  split; [exact Hw|].
  intros Hm. rewrite Hm. destruct ok; cbn; split; try reflexivity.
  discriminate.
Qed.

Lemma mgr_initialize_retains_working_backends_witness :
  nv_initialize false NV_new (mkWorld 0 0) dl_no_init env3 =
    (mkNvState (Some NVML_HANDLE) (dl_resolves dl_no_init) false 0, mkWorld 1 0, false) /\
  (snd (placeholder_initialize false) = false /\
   exists m' w',
    mgr_initialize false Manager_new (mkWorld 0 0) dl_no_init env3 =
      Some (m', w', mgr_is_initialized m') /\
    gpu_monitors m' = gpu_monitors Manager_new ++ [] /\
    mgr_is_initialized m' = negb (is_nil (gpu_monitors m')) /\
    mon_delete (MNvidia (mkNvState (Some NVML_HANDLE) (dl_resolves dl_no_init) false 0))
               (mkWorld 1 0) = Some w' /\
    (gpu_monitors Manager_new = [] ->
     mgr_is_initialized m' = false /\
     (false = false -> forall e' l, mgr_getAllGPUInfo m' e' l = (false, l)))).
Proof.
  split; [reflexivity|].
  apply (mgr_initialize_retains_working_backends false Manager_new (mkWorld 0 0)
           dl_no_init env3
           (mkNvState (Some NVML_HANDLE) (dl_resolves dl_no_init) false 0)
           (mkWorld 1 0) false); reflexivity.
Defined.

(* ------------------------------------------------------------------ *)
(** ** Cleanup *)

Lemma cleanup_some_inv (s : NvState) (w : World) :
  is_initialized s = false -> nv_cleanup s w <> None ->
  nvml_lib s = None \/ lib_refs w <> 0%nat.
Proof.
  unfold nv_cleanup. intros Hs Hc. rewrite Hs in Hc. simpl in Hc.
  destruct (nvml_lib s); [right|left; reflexivity].
  destruct (lib_refs w); [contradiction|discriminate].
Qed.

Lemma never_ready_inv (win32 : bool) (s : NvState) (w : World) :
  never_ready win32 s w ->
  is_initialized s = false /\ (nvml_lib s = None \/ lib_refs w <> 0%nat).
Proof.
  induction 1 as [w | s w d e s' w' _ [Hs _] Hi | s w s' w' _ _ Hc].
  - split; [reflexivity|left; reflexivity].
  - destruct (nv_initialize_failed win32 s w d e s' w' Hs Hi) as (Hs' & Hc & _).
    split; [exact Hs'|]. apply cleanup_some_inv; [exact Hs'|].
    rewrite Hc. discriminate.
  - unfold nv_cleanup in Hc.
    destruct (nvml_lib s);
      [destruct (lib_refs _); [discriminate|]|];
      injection Hc as <- _; split; try reflexivity; left; reflexivity.
Qed.

(** C7: [cleanup] on a backend that never initialized successfully does
    not fault and leaves the handle null, [is_initialized] false and
    [device_count] 0; the manager's [cleanup] works on a manager that was
    never initialized, and a second [cleanup] changes nothing. *)
Theorem cleanup_safe_and_idempotent (win32 : bool) (s : NvState) (w : World)
    (H : never_ready win32 s w) :
  (exists w', nv_cleanup s w = Some (mkNvState None (fptr s) false 0, w')) /\
  mgr_cleanup Manager_new w = Some (Manager_new, w) /\
  (forall m w0 m1 w1, mgr_cleanup m w0 = Some (m1, w1) ->
     m1 = Manager_new /\ mgr_cleanup m1 w1 = Some (m1, w1)).
Proof.
  split; [|split].
  - destruct (never_ready_inv win32 s w H) as [Hs Hl].
    unfold nv_cleanup. rewrite Hs. simpl.
    destruct (nvml_lib s).
    + destruct Hl as [Hn|Hr]; [discriminate|].
      destruct (lib_refs w); [contradiction|]. eexists. reflexivity.
    + eexists. reflexivity.
  - reflexivity.
  - intros m w0 m1 w1 Hc. unfold mgr_cleanup in Hc.
    destruct (release_all (gpu_monitors m) w0); [|discriminate].
    injection Hc as <- <-. split; reflexivity.
Qed.

Lemma cleanup_safe_and_idempotent_witness :
  never_ready false (mkNvState (Some NVML_HANDLE) (dl_resolves dl_no_init) false 0)
              (mkWorld 1 0) /\
  ((exists w', nv_cleanup (mkNvState (Some NVML_HANDLE) (dl_resolves dl_no_init) false 0)
                          (mkWorld 1 0) =
               Some (mkNvState None (dl_resolves dl_no_init) false 0, w')) /\
   mgr_cleanup Manager_new (mkWorld 1 0) = Some (Manager_new, mkWorld 1 0) /\
   (forall m w0 m1 w1, mgr_cleanup m w0 = Some (m1, w1) ->
      m1 = Manager_new /\ mgr_cleanup m1 w1 = Some (m1, w1))).
Proof.
  assert (Hn : never_ready false
                 (mkNvState (Some NVML_HANDLE) (dl_resolves dl_no_init) false 0)
                 (mkWorld 1 0)).
  { apply (nr_failed false NV_new (mkWorld 0 0) dl_no_init env3);
      [apply nr_new | reflexivity]. }
  split; [exact Hn|].
  apply (cleanup_safe_and_idempotent false _ _ Hn).
Defined.

(* ------------------------------------------------------------------ *)
(** ** Further lemmas: one device query step by step *)

Lemma query_body_eq (e : NvmlEnv) (i : Z) (g : GPUInfo) :
  query_body e i g =
  match nv_handle e i with
  | None => (None, g, [NvmlDeviceGetHandleByIndex])
  | Some dev =>
    match nv_name e dev with
    | None => (None, g, [NvmlDeviceGetHandleByIndex; NvmlDeviceGetName])
    | Some nm =>
      let drv := match nv_driver e i with Some v => v | None => "Unknown"%string end in
      let g1 := set_driver_version drv (set_name_vendor nm g) in
      match nv_mem e dev with
      | None => (None, g1, firstn 4 query_calls)
      | Some mem =>
        let g2 := set_memory (mem_mb (mem_total mem)) (mem_mb (mem_used mem))
                             (mem_mb (mem_free mem)) g1 in
        match nv_util e dev with
        | None => (None, g2, firstn 5 query_calls)
        | Some ut =>
          match nv_temp e dev 0 with
          | None => (None, set_utilization (f32_of_uint ut) g2, firstn 6 query_calls)
          | Some tp =>
            (Some tt,
             mkGPUInfo nm "NVIDIA" drv
               (mem_mb (mem_total mem)) (mem_mb (mem_used mem)) (mem_mb (mem_free mem))
               (f32_of_uint ut) (f32_of_uint tp)
               (match nv_power e dev with Some p => power_w p | None => 0%Q end)
               (match nv_clock e dev 0 with Some c => f32_of_uint c | None => 0%Q end)
               (match nv_clock e dev 1 with Some c => f32_of_uint c | None => 0%Q end),
             query_calls)
          end
        end
      end
    end
  end.
Proof.
  unfold query_body, q_bind, fetch, fetch_or, write.
  destruct (nv_handle e i) as [dev|]; [|reflexivity].
  destruct (nv_name e dev); [|reflexivity].
  destruct (nv_mem e dev); [|reflexivity].
  destruct (nv_util e dev); [|reflexivity].
  destruct (nv_temp e dev 0); reflexivity.
Qed.

Lemma calls_of_app (s : nvml_sym) (a b : list nvml_sym) :
  calls_of s (a ++ b) = (calls_of s a + calls_of s b)%nat.
Proof. unfold calls_of. rewrite filter_app, length_app. reflexivity. Qed.

Lemma nv_sweep_snd (e : NvmlEnv) (n : nat) :
  forall i l t, snd (nv_sweep e i n l t) =
    t ++ flat_map (fun k => snd (query_body e k GPUInfo_default)) (zrange i n).
Proof.
  induction n as [|n IH]; intros i l t; simpl.
  - symmetry. apply app_nil_r.
  - destruct (query_body e i GPUInfo_default) as [[[u|] g] t1];
      rewrite IH, app_assoc; reflexivity.
Qed.

Lemma calls_of_flat_map (s : nvml_sym) (f : Z -> list nvml_sym) (ks : list Z) :
  calls_of s (flat_map f ks) = fold_right (fun k acc => calls_of s (f k) + acc)%nat 0%nat ks.
Proof.
  induction ks as [|k ks IH]; simpl; [reflexivity|].
  rewrite calls_of_app, IH. reflexivity.
Qed.

Lemma forallb_all (d : DlEnv) :
  forallb (dl_resolves d) nvml_syms = true -> forall sym, dl_resolves d sym = true.
Proof.
  intros H sym. rewrite forallb_forall in H. apply H.
  destruct sym; simpl; tauto.
Qed.

Lemma nv_initialize_success (win32 : bool) (s : NvState) (w : World)
    (d : DlEnv) (e : NvmlEnv) (s' : NvState) (w' : World) :
  nv_initialize win32 s w d e = (s', w', true) <->
  dl_load d (nvml_candidates win32) = true /\
  forallb (dl_resolves d) nvml_syms = true /\ nv_init_ok e = true /\
  nv_count e = Some (device_count s') /\
  s' = mkNvState (Some NVML_HANDLE) (dl_resolves d) true (device_count s') /\
  w' = mkWorld (S (lib_refs w)) (S (nvml_sessions w)).
Proof.
  unfold nv_initialize. split.
  - destruct (dl_load d (nvml_candidates win32)); cbn -[forallb nvml_syms];
      [|intros H; inversion H].
    destruct (forallb (dl_resolves d) nvml_syms); cbn -[forallb nvml_syms];
      [|intros H; inversion H].
    destruct (nv_init_ok e); cbn -[forallb nvml_syms]; [|intros H; inversion H].
    destruct (nv_count e) as [n|]; intros H; inversion H; subst.
    repeat split; reflexivity.
  - intros (Hl & Hf & Hi & Hc & Hs & Hw).
    rewrite Hl. cbn -[forallb nvml_syms]. rewrite Hf, Hi, Hc.
    cbn -[forallb nvml_syms]. rewrite Hs, Hw. reflexivity.
Qed.


Lemma f32_scaled_neg (n k : Z) : 0 <= k -> f32_scaled n 1 (- k) = (n * 2 ^ k, 1).
Proof.
  intros Hk. unfold f32_scaled.
  destruct (- k <? 0) eqn:E.
  - rewrite Z.opp_involutive. reflexivity.
  - apply Z.ltb_ge in E. assert (k = 0) by lia. subst k. simpl.
    f_equal. lia.
Qed.

(** [static_cast<float>] is exact on unsigned values below 2^24. *)
Lemma f32_of_uint_exact (n : Z) : 0 <= n < 2 ^ 24 -> (f32_of_uint n == inject_Z n)%Q.
Proof.
  intros Hn. unfold f32_of_uint, f32_of_Q. simpl Qnum. simpl Qden.
  destruct (n <=? 0) eqn:E0.
  - apply Z.leb_le in E0. assert (n = 0) by lia. subst n. reflexivity.
  - apply Z.leb_gt in E0.
    assert (Hl : 2 ^ Z.log2 n <= n < 2 ^ Z.succ (Z.log2 n)) by (apply Z.log2_spec; lia).
    assert (Ha : Z.log2 n < 24) by (apply Z.log2_lt_pow2; lia).
    assert (Ha0 : 0 <= Z.log2 n) by apply Z.log2_nonneg.
    set (k := 23 - Z.log2 n).
    assert (Hk : 0 <= k) by lia.
    assert (Hpow : 2 ^ 23 = 2 ^ Z.log2 n * 2 ^ k).
    { rewrite <- Z.pow_add_r by lia. f_equal. unfold k. lia. }
    assert (Hge : 2 ^ 23 <= n * 2 ^ k).
    { rewrite Hpow. apply Z.mul_le_mono_nonneg_r; [apply Z.pow_nonneg; lia | lia]. }
    unfold f32_round. cbv zeta.
    rewrite Z.log2_1.
    replace (Z.log2 n - 0 - 23) with (- k) by (unfold k; lia).
    rewrite (f32_scaled_neg n k Hk). cbn [fst snd].
    rewrite Z.div_1_r.
    destruct (n * 2 ^ k <? 2 ^ 23) eqn:Elt; [apply Z.ltb_lt in Elt; lia|].
    cbv beta iota.
    rewrite (f32_scaled_neg n k Hk). cbn [fst snd].
    rewrite Z.div_1_r, Z.mod_1_r.
    change (1 <? 2 * 0) with false. change (2 * 0 =? 1) with false.
    cbn [orb andb].
    destruct (- k <? 0) eqn:Ek.
    + unfold Qeq. cbn [Qnum Qden inject_Z]. rewrite Z.opp_involutive.
      rewrite Z2Pos.id by (apply Z.pow_pos_nonneg; lia). ring.
    + apply Z.ltb_ge in Ek. assert (Hk0 : k = 0) by lia.
      rewrite Hk0. unfold Qeq. cbn [Qnum Qden inject_Z]. rewrite ?Z.opp_0, ?Z.pow_0_r. ring.
Qed.

Lemma mgr_collected_single (nv : NvState) (b : bool) (e : NvmlEnv) :
  mgr_collected (mkManager [MNvidia nv] b) e =
  if nv_ready nv then emitted e (Z.to_nat (device_count nv)) else [].
Proof.
  unfold mgr_collected. simpl.
  pose proof (nv_getAllGPUInfo_fst nv e []) as H.
  destruct (nv_getAllGPUInfo nv e []) as [[b' l'] t]. simpl in H.
  destruct (nv_ready nv); injection H as -> ->; simpl; [|reflexivity].
  destruct (emitted e (Z.to_nat (device_count nv))); reflexivity.
Qed.

Lemma mgr_cleanup_after_success (win32 : bool) (w : World) (d : DlEnv)
    (e : NvmlEnv) (nv : NvState) (w1 : World)
    (Hnv : nv_initialize win32 NV_new w d e = (nv, w1, true)) :
  mgr_cleanup (mkManager [MNvidia nv] true) w1 = Some (Manager_new, w).
Proof.
  apply nv_initialize_success in Hnv.
  destruct Hnv as (_ & Hf & _ & _ & Hs & Hw).
  rewrite Hs, Hw. unfold mgr_cleanup. simpl.
  unfold mon_delete, mon_cleanup, nv_cleanup. simpl.
  rewrite (forallb_all d Hf NvmlShutdown). simpl.
  destruct w. reflexivity.
Qed.

Lemma query_calls_counts (e : NvmlEnv) (k : Z) (g : GPUInfo) :
  calls_of NvmlDeviceGetHandleByIndex (snd (query_body e k g)) = 1%nat /\
  calls_of NvmlDeviceGetPowerUsage (snd (query_body e k g)) =
    (if core_ok e k then 1 else 0)%nat /\
  calls_of NvmlDeviceGetClockInfo (snd (query_body e k g)) =
    (if core_ok e k then 2 else 0)%nat.
Proof.
  rewrite query_body_eq. unfold core_ok.
  destruct (nv_handle e k) as [dev|]; [|repeat split].
  destruct (nv_name e dev), (nv_mem e dev), (nv_util e dev), (nv_temp e dev 0);
    repeat split.
Qed.

Lemma fold_count_const (f : Z -> nat) (c : nat) (Hf : forall k, f k = c) :
  forall n i, fold_right (fun k acc => f k + acc)%nat 0%nat (zrange i n) = (c * n)%nat.
Proof.
  induction n as [|n IH]; intros i; simpl; [lia|].
  rewrite Hf, IH. lia.
Qed.

Lemma fold_count_emitted (e : NvmlEnv) (f : Z -> nat) (c : nat)
    (Hf : forall k, f k = if core_ok e k then c else 0%nat) :
  forall n i, fold_right (fun k acc => f k + acc)%nat 0%nat (zrange i n) =
              (c * List.length (emitted_from e i n))%nat.
Proof.
  induction n as [|n IH]; intros i; simpl; [lia|].
  change (emitted_from e i (S n)) with
    ((match device_record e i with Some g => [g] | None => [] end) ++
     emitted_from e (i + 1) n).
  rewrite length_app, Hf, IH, <- device_record_some_iff.
  destruct (device_record e i); simpl; lia.
Qed.

(* ------------------------------------------------------------------ *)
(** ** Further properties of the code *)

(** X1. [NVIDIA_GPUMonitor::getGPUInfo] on a ready backend only looks at
    device 0: it returns true exactly when the five core fetches of device 0
    succeed, and then every field of the caller's record is overwritten with
    the record the sweep of [getAllGPUInfo] pushes for device 0. *)
Theorem getGPUInfo_overwrites_with_device0 (s : NvState) (e : NvmlEnv) (g : GPUInfo)
    (Hr : nv_ready s = true) :
  fst (fst (nv_getGPUInfo s e g)) = core_ok e 0 /\
  (core_ok e 0 = true -> Some (snd (fst (nv_getGPUInfo s e g))) = device_record e 0).
Proof.
  unfold nv_getGPUInfo. rewrite Hr. cbn [negb].
  rewrite query_body_eq, device_record_eq. unfold core_ok.
  destruct (nv_handle e 0) as [dev|]; [|split; [reflexivity|discriminate]].
  destruct (nv_name e dev), (nv_mem e dev), (nv_util e dev), (nv_temp e dev 0);
    cbn; split; try reflexivity; discriminate.
Qed.

Lemma getGPUInfo_overwrites_with_device0_witness :
  nv_ready nv3 = true /\
  (fst (fst (nv_getGPUInfo nv3 env3 GPUInfo_default)) = core_ok env3 0 /\
   (core_ok env3 0 = true ->
    Some (snd (fst (nv_getGPUInfo nv3 env3 GPUInfo_default))) = device_record env3 0)).
Proof.
  split; [reflexivity|].
  apply (getGPUInfo_overwrites_with_device0 nv3 env3 GPUInfo_default). reflexivity.
Defined.

(** X2. When [getGPUInfo] gets past the handle and name fetches of device 0
    but a later core fetch fails, it returns false yet has already written
    the name, the vendor "NVIDIA" and the driver version into the caller's
    record; the power and clock fields keep the caller's values. *)
Theorem getGPUInfo_partial_write (s : NvState) (e : NvmlEnv) (g : GPUInfo)
    (dev : Z) (nm : string)
    (Hr : nv_ready s = true) (Hd : nv_handle e 0 = Some dev)
    (Hn : nv_name e dev = Some nm) (Hf : core_ok e 0 = false) :
  fst (fst (nv_getGPUInfo s e g)) = false /\
  name (snd (fst (nv_getGPUInfo s e g))) = nm /\
  vendor (snd (fst (nv_getGPUInfo s e g))) = "NVIDIA"%string /\
  driver_version (snd (fst (nv_getGPUInfo s e g))) =
    match nv_driver e 0 with Some v => v | None => "Unknown"%string end /\
  power_usage (snd (fst (nv_getGPUInfo s e g))) = power_usage g /\
  clock_core (snd (fst (nv_getGPUInfo s e g))) = clock_core g /\
  clock_memory (snd (fst (nv_getGPUInfo s e g))) = clock_memory g.
Proof.
  unfold core_ok in Hf. rewrite Hd, Hn in Hf.
  unfold nv_getGPUInfo. rewrite Hr. cbn [negb].
  rewrite query_body_eq, Hd, Hn.
  destruct (nv_mem e dev), (nv_util e dev), (nv_temp e dev 0);
    try discriminate; cbn; repeat split.
Qed.

Lemma getGPUInfo_partial_write_witness :
  nv_ready nv1 = true /\ nv_handle env_no_mem 0 = Some 0 /\
  nv_name env_no_mem 0 = Some "GPU0"%string /\ core_ok env_no_mem 0 = false /\
  (fst (fst (nv_getGPUInfo nv1 env_no_mem GPUInfo_default)) = false /\
   name (snd (fst (nv_getGPUInfo nv1 env_no_mem GPUInfo_default))) = "GPU0"%string /\
   vendor (snd (fst (nv_getGPUInfo nv1 env_no_mem GPUInfo_default))) = "NVIDIA"%string /\
   driver_version (snd (fst (nv_getGPUInfo nv1 env_no_mem GPUInfo_default))) =
     match nv_driver env_no_mem 0 with Some v => v | None => "Unknown"%string end /\
   power_usage (snd (fst (nv_getGPUInfo nv1 env_no_mem GPUInfo_default))) =
     power_usage GPUInfo_default /\
   clock_core (snd (fst (nv_getGPUInfo nv1 env_no_mem GPUInfo_default))) =
     clock_core GPUInfo_default /\
   clock_memory (snd (fst (nv_getGPUInfo nv1 env_no_mem GPUInfo_default))) =
     clock_memory GPUInfo_default).
Proof.
  split; [reflexivity|]. split; [reflexivity|]. split; [reflexivity|].
  split; [reflexivity|].
  apply (getGPUInfo_partial_write nv1 env_no_mem GPUInfo_default 0 "GPU0"%string);
    reflexivity.
Defined.

(** X3. The NVML calls of one device query stop right after the first
    required fetch that fails: a failed handle fetch is the only call; a
    failed name fetch follows the handle fetch; a failed memory,
    utilization or temperature fetch follows the handle, name, driver-version
    fetches and the required fetches before it.  When all five required
    fetches succeed the query makes every call of [query_calls], in order;
    when one fails it never calls the power or clock entry points. *)
Theorem query_trace_stops_at_core_failure (e : NvmlEnv) (i : Z) (g : GPUInfo) :
  (nv_handle e i = None -> snd (query_body e i g) = [NvmlDeviceGetHandleByIndex]) /\
  (forall dev, nv_handle e i = Some dev ->
   (nv_name e dev = None ->
    snd (query_body e i g) = [NvmlDeviceGetHandleByIndex; NvmlDeviceGetName]) /\
   (nv_name e dev <> None -> nv_mem e dev = None ->
    snd (query_body e i g) =
      [NvmlDeviceGetHandleByIndex; NvmlDeviceGetName; NvmlSystemGetDriverVersion;
       NvmlDeviceGetMemoryInfo]) /\
   (nv_name e dev <> None -> nv_mem e dev <> None -> nv_util e dev = None ->
    snd (query_body e i g) =
      [NvmlDeviceGetHandleByIndex; NvmlDeviceGetName; NvmlSystemGetDriverVersion;
       NvmlDeviceGetMemoryInfo; NvmlDeviceGetUtilizationRates]) /\
   (nv_name e dev <> None -> nv_mem e dev <> None -> nv_util e dev <> None ->
    nv_temp e dev 0 = None ->
    snd (query_body e i g) =
      [NvmlDeviceGetHandleByIndex; NvmlDeviceGetName; NvmlSystemGetDriverVersion;
       NvmlDeviceGetMemoryInfo; NvmlDeviceGetUtilizationRates;
       NvmlDeviceGetTemperature])) /\
  (core_ok e i = true -> snd (query_body e i g) = query_calls) /\
  (core_ok e i = false ->
   calls_of NvmlDeviceGetPowerUsage (snd (query_body e i g)) = 0%nat /\
   calls_of NvmlDeviceGetClockInfo (snd (query_body e i g)) = 0%nat).
Proof.
  rewrite query_body_eq. unfold core_ok.
  destruct (nv_handle e i) as [dev|].
  - split; [discriminate|].
    split; [intros dev' Hd; injection Hd as <-|].
    + destruct (nv_name e dev), (nv_mem e dev), (nv_util e dev), (nv_temp e dev 0);
        cbn; repeat split; intros; congruence.
    + destruct (nv_name e dev), (nv_mem e dev), (nv_util e dev), (nv_temp e dev 0);
        cbn; split; intros; try discriminate; try reflexivity; split; reflexivity.
  - cbn. split; [reflexivity|]. split; [discriminate|].
    split; [discriminate|]. intros _. split; reflexivity.
Qed.

(** X4. The sweep of [getAllGPUInfo] on a ready backend calls the handle
    entry point once per device index, and the power entry point once and
    the clock entry point twice per record it emits. *)
Theorem sweep_call_counts (s : NvState) (e : NvmlEnv) (l : list GPUInfo)
    (Hr : nv_ready s = true) :
  calls_of NvmlDeviceGetHandleByIndex (snd (nv_getAllGPUInfo s e l)) =
    Z.to_nat (device_count s) /\
  calls_of NvmlDeviceGetPowerUsage (snd (nv_getAllGPUInfo s e l)) =
    List.length (emitted e (Z.to_nat (device_count s))) /\
  calls_of NvmlDeviceGetClockInfo (snd (nv_getAllGPUInfo s e l)) =
    (2 * List.length (emitted e (Z.to_nat (device_count s))))%nat.
Proof.
  assert (Ht : snd (nv_getAllGPUInfo s e l) =
    flat_map (fun k => snd (query_body e k GPUInfo_default))
             (zrange 0 (Z.to_nat (device_count s)))).
  { unfold nv_getAllGPUInfo. rewrite Hr. cbn [negb].
    pose proof (nv_sweep_snd e (Z.to_nat (device_count s)) 0 l []) as H.
    destruct (nv_sweep e 0 (Z.to_nat (device_count s)) l []) as [l' t].
    exact H. }
  rewrite Ht, !calls_of_flat_map. unfold emitted.
  split; [|split].
  - rewrite (fold_count_const _ 1); [lia|].
    intros k. apply (query_calls_counts e k GPUInfo_default).
  - rewrite (fold_count_emitted e _ 1); [lia|].
    intros k. apply (query_calls_counts e k GPUInfo_default).
  - apply (fold_count_emitted e _ 2).
    intros k. apply (query_calls_counts e k GPUInfo_default).
Qed.

Lemma sweep_call_counts_witness :
  nv_ready nv3 = true /\
  (calls_of NvmlDeviceGetHandleByIndex (snd (nv_getAllGPUInfo nv3 env3 [])) =
     Z.to_nat (device_count nv3) /\
   calls_of NvmlDeviceGetPowerUsage (snd (nv_getAllGPUInfo nv3 env3 [])) =
     List.length (emitted env3 (Z.to_nat (device_count nv3))) /\
   calls_of NvmlDeviceGetClockInfo (snd (nv_getAllGPUInfo nv3 env3 [])) =
     (2 * List.length (emitted env3 (Z.to_nat (device_count nv3))))%nat).
Proof.
  split; [reflexivity|].
  apply (sweep_call_counts nv3 env3 []). reflexivity.
Defined.

(** X5. [NVIDIA_GPUMonitor::initialize] returns true exactly when a
    candidate library opens, all eleven entry points resolve, [nvmlInit]
    succeeds and the device count is read.  Then every entry point of the
    backend is bound, it is initialized with the device count cached, and
    it holds one more library reference and one more NVML session. *)
Theorem nv_initialize_true_iff (win32 : bool) (s : NvState) (w : World)
    (d : DlEnv) (e : NvmlEnv) :
  (snd (nv_initialize win32 s w d e) = true <->
   dl_load d (nvml_candidates win32) = true /\
   (forall sym, dl_resolves d sym = true) /\
   nv_init_ok e = true /\ nv_count e <> None) /\
  (forall s' w', nv_initialize win32 s w d e = (s', w', true) ->
   (forall sym, fptr s' sym = true) /\ is_initialized s' = true /\
   nvml_lib s' = Some NVML_HANDLE /\ nv_count e = Some (device_count s') /\
   lib_refs w' = S (lib_refs w) /\ nvml_sessions w' = S (nvml_sessions w)).
Proof.
  split.
  - destruct (nv_initialize win32 s w d e) as [[s' w'] b] eqn:E. cbn [snd].
    split.
    + intros ->. apply nv_initialize_success in E.
      destruct E as (Hl & Hf & Hi & Hc & _).
      repeat split; auto.
      * apply forallb_all. exact Hf.
      * rewrite Hc. discriminate.
    + intros (Hl & Hall & Hi & Hc).
      assert (Hf : forallb (dl_resolves d) nvml_syms = true)
        by (apply forallb_forall; intros sym _; apply Hall).
      destruct (nv_count e) as [n|] eqn:Hn; [|contradiction].
      rewrite (proj2 (nv_initialize_success win32 s w d e
                 (mkNvState (Some NVML_HANDLE) (dl_resolves d) true n)
                 (mkWorld (S (lib_refs w)) (S (nvml_sessions w)))))
        in E by (repeat split; auto).
      injection E as _ _ Hb. exact (eq_sym Hb).
  - intros s' w' E. apply nv_initialize_success in E.
    destruct E as (Hl & Hf & Hi & Hc & Hs & Hw).
    rewrite Hs, Hw. cbn. repeat split; auto.
    apply forallb_all. exact Hf.
Qed.

(** X6. When no candidate library opens, [initialize] returns false and
    only nulls the library handle: the world is unchanged, the query results
    are those of the backend before the call, and a later [cleanup] never
    releases a library reference. *)
Theorem nv_initialize_without_library (win32 : bool) (s : NvState) (w : World)
    (d : DlEnv) (e : NvmlEnv)
    (Hl : dl_load d (nvml_candidates win32) = false) :
  nv_initialize win32 s w d e =
    (mkNvState None (fptr s) (is_initialized s) (device_count s), w, false) /\
  (forall e' l, nv_getAllGPUInfo (mkNvState None (fptr s) (is_initialized s)
                                            (device_count s)) e' l =
                nv_getAllGPUInfo s e' l) /\
  (forall e' g, nv_getGPUInfo (mkNvState None (fptr s) (is_initialized s)
                                         (device_count s)) e' g =
                nv_getGPUInfo s e' g) /\
  (forall w0, exists s'' w'',
     nv_cleanup (mkNvState None (fptr s) (is_initialized s) (device_count s)) w0 =
       Some (s'', w'') /\ lib_refs w'' = lib_refs w0).
Proof.
  split; [unfold nv_initialize; rewrite Hl; reflexivity|].
  split; [intros e' l; reflexivity|].
  split; [intros e' g; reflexivity|].
  intros w0. unfold nv_cleanup. cbn [nvml_lib fptr is_initialized].
  destruct (is_initialized s && fptr s NvmlShutdown); eexists _, _; split; reflexivity.
Qed.

Lemma nv_initialize_without_library_witness :
  dl_load (mkDlEnv (fun _ => false) (fun _ => true)) (nvml_candidates false) = false /\
  (nv_initialize false nv3 (mkWorld 1 1) (mkDlEnv (fun _ => false) (fun _ => true)) env3 =
     (mkNvState None (fptr nv3) (is_initialized nv3) (device_count nv3), mkWorld 1 1, false) /\
   (forall e' l, nv_getAllGPUInfo (mkNvState None (fptr nv3) (is_initialized nv3)
                                             (device_count nv3)) e' l =
                 nv_getAllGPUInfo nv3 e' l) /\
   (forall e' g, nv_getGPUInfo (mkNvState None (fptr nv3) (is_initialized nv3)
                                          (device_count nv3)) e' g =
                 nv_getGPUInfo nv3 e' g) /\
   (forall w0, exists s'' w'',
      nv_cleanup (mkNvState None (fptr nv3) (is_initialized nv3) (device_count nv3)) w0 =
        Some (s'', w'') /\ lib_refs w'' = lib_refs w0)).
Proof.
  split; [reflexivity|].
  apply (nv_initialize_without_library false nv3 (mkWorld 1 1)
           (mkDlEnv (fun _ => false) (fun _ => true)) env3).
  reflexivity.
Defined.

(** X7. [GPUMonitorManager::initialize] never drops the backends a manager
    already holds: the new NVIDIA backend, if its [initialize] returned true,
    is appended after them, and the result is true whenever the list is not
    empty, so a second call on an initialized manager keeps two NVIDIA
    backends. *)
Theorem mgr_initialize_keeps_earlier_backends (win32 : bool) (m : Manager)
    (w : World) (d : DlEnv) (e : NvmlEnv) (nv : NvState) (w1 : World) (ok : bool)
    (Hnv : nv_initialize win32 NV_new w d e = (nv, w1, ok)) :
  exists m' w', mgr_initialize win32 m w d e = Some (m', w', mgr_is_initialized m') /\
    gpu_monitors m' = gpu_monitors m ++ (if ok then [MNvidia nv] else []) /\
    mgr_is_initialized m' = negb (is_nil (gpu_monitors m')).
Proof.
  destruct (mgr_initialize_eq win32 m w d e nv w1 ok Hnv) as (w' & _ & H).
  exists (mkManager (gpu_monitors m ++ (if ok then [MNvidia nv] else []))
                    (negb (is_nil (gpu_monitors m ++ (if ok then [MNvidia nv] else []))))), w'.
  split; [exact H|]. split; reflexivity.
Qed.

Lemma mgr_initialize_keeps_earlier_backends_witness :
  nv_initialize false NV_new (mkWorld 1 1) dl_all env3 =
    (mkNvState (Some NVML_HANDLE) (dl_resolves dl_all) true 3, mkWorld 2 2, true) /\
  (exists m' w',
     mgr_initialize false (mkManager [MNvidia nv3] true) (mkWorld 1 1) dl_all env3 =
       Some (m', w', mgr_is_initialized m') /\
     gpu_monitors m' = [MNvidia nv3] ++
       (if true then [MNvidia (mkNvState (Some NVML_HANDLE) (dl_resolves dl_all) true 3)]
        else []) /\
     mgr_is_initialized m' = negb (is_nil (gpu_monitors m'))).
Proof.
  split; [reflexivity|].
  apply (mgr_initialize_keeps_earlier_backends false (mkManager [MNvidia nv3] true)
           (mkWorld 1 1) dl_all env3
           (mkNvState (Some NVML_HANDLE) (dl_resolves dl_all) true 3) (mkWorld 2 2) true).
  reflexivity.
Defined.

(** X8. After a successful [GPUMonitorManager::initialize] on a fresh
    manager, [getAllGPUInfo] appends to the caller's list exactly the records
    the NVIDIA sweep emits (none when the device count is 0) and returns
    whether the resulting list is non-empty. *)
Theorem mgr_getAllGPUInfo_after_initialize (win32 : bool) (w : World) (d : DlEnv)
    (e : NvmlEnv) (nv : NvState) (w1 : World)
    (Hnv : nv_initialize win32 NV_new w d e = (nv, w1, true)) :
  exists m' w', mgr_initialize win32 Manager_new w d e = Some (m', w', true) /\
    forall e' l,
      mgr_getAllGPUInfo m' e' l =
        (negb (is_nil (l ++ (if nv_ready nv then emitted e' (Z.to_nat (device_count nv))
                             else []))),
         l ++ (if nv_ready nv then emitted e' (Z.to_nat (device_count nv)) else [])).
Proof.
  destruct (mgr_initialize_eq win32 Manager_new w d e nv w1 true Hnv) as (w' & _ & H).
  cbn in H. exists (mkManager [MNvidia nv] true), w'. split; [exact H|].
  intros e' l. rewrite mgr_getAllGPUInfo_eq, mgr_collected_single. reflexivity.
Qed.

Lemma mgr_getAllGPUInfo_after_initialize_witness :
  nv_initialize false NV_new (mkWorld 0 0) dl_all env3 =
    (mkNvState (Some NVML_HANDLE) (dl_resolves dl_all) true 3, mkWorld 1 1, true) /\
  (exists m' w', mgr_initialize false Manager_new (mkWorld 0 0) dl_all env3 =
                   Some (m', w', true) /\
    forall e' l,
      mgr_getAllGPUInfo m' e' l =
        (negb (is_nil (l ++ (if nv_ready (mkNvState (Some NVML_HANDLE) (dl_resolves dl_all) true 3)
                             then emitted e' (Z.to_nat 3) else []))),
         l ++ (if nv_ready (mkNvState (Some NVML_HANDLE) (dl_resolves dl_all) true 3)
               then emitted e' (Z.to_nat 3) else []))).
Proof.
  split; [reflexivity|].
  apply (mgr_getAllGPUInfo_after_initialize false (mkWorld 0 0) dl_all env3
           (mkNvState (Some NVML_HANDLE) (dl_resolves dl_all) true 3) (mkWorld 1 1)).
  reflexivity.
Defined.

(** X9. [GPUMonitorManager::cleanup] after a successful [initialize] on a
    fresh manager does not fault, leaves the manager empty and uninitialized,
    and gives back the library reference and the NVML session the NVIDIA
    backend took: the world is the one before [initialize]. *)
Theorem mgr_cleanup_undoes_initialize (win32 : bool) (w : World) (d : DlEnv)
    (e : NvmlEnv) (nv : NvState) (w1 : World)
    (Hnv : nv_initialize win32 NV_new w d e = (nv, w1, true)) :
  exists m' w', mgr_initialize win32 Manager_new w d e = Some (m', w', true) /\
    mgr_cleanup m' w' = Some (Manager_new, w).
Proof.
  destruct (mgr_initialize_eq win32 Manager_new w d e nv w1 true Hnv) as (w' & Hw & H).
  cbn in H, Hw. subst w'.
  exists (mkManager [MNvidia nv] true), w1. split; [exact H|].
  apply (mgr_cleanup_after_success win32 w d e nv w1 Hnv).
Qed.

Lemma mgr_cleanup_undoes_initialize_witness :
  nv_initialize false NV_new (mkWorld 0 0) dl_all env3 =
    (mkNvState (Some NVML_HANDLE) (dl_resolves dl_all) true 3, mkWorld 1 1, true) /\
  (exists m' w', mgr_initialize false Manager_new (mkWorld 0 0) dl_all env3 =
                   Some (m', w', true) /\
    mgr_cleanup m' w' = Some (Manager_new, mkWorld 0 0)).
Proof.
  split; [reflexivity|].
  apply (mgr_cleanup_undoes_initialize false (mkWorld 0 0) dl_all env3
           (mkNvState (Some NVML_HANDLE) (dl_resolves dl_all) true 3) (mkWorld 1 1)).
  reflexivity.
Defined.

(** X10. [ConsoleUI::displayGPUInfo] and [displayAdvancedGPUInfo] never
    fault and leave no library reference or NVML session behind.  They
    report the initialization failure when the NVIDIA [initialize] returns
    false; otherwise they print the records the sweep emits, or the
    no-information message when there are none. *)
Theorem displayGPUInfo_outcome (win32 : bool) (w : World) (d : DlEnv)
    (e : NvmlEnv) (nv : NvState) (w1 : World) (ok : bool)
    (Hnv : nv_initialize win32 NV_new w d e = (nv, w1, ok)) :
  displayGPUInfo win32 w d e =
    Some (if ok
          then match (if nv_ready nv then emitted e (Z.to_nat (device_count nv)) else []) with
               | [] => DispNoInfo
               | l => DispRecords l
               end
          else DispInitFailed, w).
Proof.
  destruct (mgr_initialize_eq win32 Manager_new w d e nv w1 ok Hnv) as (w' & Hw & H).
  unfold displayGPUInfo. rewrite H. destruct ok; cbn -[mgr_getAllGPUInfo mgr_cleanup].
  - subst w'. rewrite mgr_getAllGPUInfo_eq, mgr_collected_single.
    cbn -[mgr_cleanup emitted].
    rewrite (mgr_cleanup_after_success win32 w d e nv w1 Hnv). cbn -[emitted].
    destruct (if nv_ready nv then emitted e (Z.to_nat (device_count nv)) else []);
      reflexivity.
  - destruct (nv_initialize_failed win32 NV_new w d e nv w1 eq_refl Hnv)
      as (_ & Hc & _).
    unfold mon_delete, mon_cleanup in Hw. rewrite Hc in Hw. cbn in Hw.
    injection Hw as <-. reflexivity.
Qed.

Lemma displayGPUInfo_outcome_witness :
  nv_initialize false NV_new (mkWorld 2 1) dl_all env3 =
    (mkNvState (Some NVML_HANDLE) (dl_resolves dl_all) true 3, mkWorld 3 2, true) /\
  displayGPUInfo false (mkWorld 2 1) dl_all env3 =
    Some (if true
          then match (if nv_ready (mkNvState (Some NVML_HANDLE) (dl_resolves dl_all) true 3)
                      then emitted env3 (Z.to_nat 3) else []) with
               | [] => DispNoInfo
               | l => DispRecords l
               end
          else DispInitFailed, mkWorld 2 1).
Proof.
  split; [reflexivity|].
  apply (displayGPUInfo_outcome false (mkWorld 2 1) dl_all env3
           (mkNvState (Some NVML_HANDLE) (dl_resolves dl_all) true 3) (mkWorld 3 2) true).
  reflexivity.
Defined.

(** X11. The utilization, temperature and clock fields of an emitted
    record hold the value NVML reported exactly whenever it is below 2^24,
    the range where [static_cast<float>] loses nothing. *)
Theorem small_readings_stored_exactly (e : NvmlEnv) (i : Z) (g : GPUInfo) (dev : Z)
    (Hg : device_record e i = Some g) (Hd : nv_handle e i = Some dev) :
  (forall u, nv_util e dev = Some u -> 0 <= u < 2 ^ 24 ->
     (utilization g == inject_Z u)%Q) /\
  (forall t, nv_temp e dev 0 = Some t -> 0 <= t < 2 ^ 24 ->
     (temperature g == inject_Z t)%Q) /\
  (forall c, nv_clock e dev 0 = Some c -> 0 <= c < 2 ^ 24 ->
     (clock_core g == inject_Z c)%Q) /\
  (forall c, nv_clock e dev 1 = Some c -> 0 <= c < 2 ^ 24 ->
     (clock_memory g == inject_Z c)%Q).
Proof.
  rewrite device_record_eq, Hd in Hg.
  destruct (nv_name e dev), (nv_mem e dev), (nv_util e dev) as [u0|] eqn:Hu,
    (nv_temp e dev 0) as [t0|] eqn:Ht; try discriminate.
  injection Hg as <-. cbn.
  repeat split; intros x Hx Hr;
    [injection Hx as <- | injection Hx as <- | rewrite Hx | rewrite Hx];
    apply f32_of_uint_exact; exact Hr.
Qed.

Lemma small_readings_stored_exactly_witness :
  exists g, device_record env3 0 = Some g /\ nv_handle env3 0 = Some 10 /\
  ((forall u, nv_util env3 10 = Some u -> 0 <= u < 2 ^ 24 ->
      (utilization g == inject_Z u)%Q) /\
   (forall t, nv_temp env3 10 0 = Some t -> 0 <= t < 2 ^ 24 ->
      (temperature g == inject_Z t)%Q) /\
   (forall c, nv_clock env3 10 0 = Some c -> 0 <= c < 2 ^ 24 ->
      (clock_core g == inject_Z c)%Q) /\
   (forall c, nv_clock env3 10 1 = Some c -> 0 <= c < 2 ^ 24 ->
      (clock_memory g == inject_Z c)%Q)).
Proof.
  eexists. split; [reflexivity|]. split; [reflexivity|].
  apply (small_readings_stored_exactly env3 0 _ 10); reflexivity.
Defined.

(** X12. After [NVIDIA_GPUMonitor::cleanup] returns, the backend is inert:
    [getGPUInfo] and [getAllGPUInfo] return false without any NVML call and
    leave the caller's record and list untouched. *)
Theorem queries_inert_after_cleanup (s : NvState) (w : World) (s' : NvState)
    (w' : World) (Hc : nv_cleanup s w = Some (s', w')) :
  (forall e g, nv_getGPUInfo s' e g = (false, g, [])) /\
  (forall e l, nv_getAllGPUInfo s' e l = (false, l, [])).
Proof.
  assert (Hs : s' = mkNvState None (fptr s) false 0).
  { unfold nv_cleanup in Hc.
    destruct (nvml_lib s);
      [destruct (lib_refs _); [discriminate|]|];
      injection Hc as <- _; reflexivity. }
  subst s'. split; reflexivity.
Qed.

Lemma queries_inert_after_cleanup_witness :
  nv_cleanup nv3 (mkWorld 1 1) = Some (mkNvState None (fptr nv3) false 0, mkWorld 0 0) /\
  ((forall e g, nv_getGPUInfo (mkNvState None (fptr nv3) false 0) e g = (false, g, [])) /\
   (forall e l, nv_getAllGPUInfo (mkNvState None (fptr nv3) false 0) e l = (false, l, []))).
Proof.
  split; [reflexivity|].
  apply (queries_inert_after_cleanup nv3 (mkWorld 1 1) _ (mkWorld 0 0)).
  reflexivity.
Defined.
